(** * airsim-client: the msgpack codec of the domain types and the
      multirotor command facade, embedded in Rocq.

    Source files: src/types/vector.rs, src/types/quaternion.rs,
    src/types/sensors.rs, src/types/environment.rs and
    src/clients/multi_rotor_client.rs. *)

From Stdlib Require Import ZArith List String Lia Bool.
From Stdlib Require Import Floats.SpecFloat.
Import ListNotations.
Set Warnings "-register-all,-notation-for-abbreviation".
Open Scope Z_scope.

(** ** Machine floats

    [f32] and [f64] are IEEE-754 binary32 and binary64 values in the
    Standard Library's specification format (sign, integral mantissa,
    exponent; NaN without payload).  A value of the Rust type is a
    [spec_float] that is [valid_binary] for the format. *)

Definition prec32 : Z := 24.
Definition emax32 : Z := 128.
Definition prec64 : Z := 53.
Definition emax64 : Z := 1024.

Definition f32 := spec_float.
Definition f64 := spec_float.

(** A finite binary32 value: a (signed) zero or a finite number that is
    well formed for the binary32 format. *)
Definition is_finite32 (x : f32) : bool :=
  match x with
  | S754_zero _ => true
  | S754_finite _ _ _ => valid_binary prec32 emax32 x
  | _ => false
  end.

(** [x as f64] for [x : f32]: exact, renormalised to binary64. *)
Definition f32_as_f64 (x : f32) : f64 :=
  match x with
  | S754_finite s m e => binary_round prec64 emax64 s m e
  | _ => x
  end.

(** [x as f32] for [x : f64]: round to nearest, ties to even; overflow
    goes to infinity. *)
Definition f64_as_f32 (x : f64) : f32 :=
  match x with
  | S754_finite s m e => binary_round prec32 emax32 s m e
  | _ => x
  end.

(** [n as f64] for a msgpack integer (u64 or i64): round to nearest. *)
Definition int_as_f64 (n : Z) : f64 := binary_normalize prec64 emax64 n 0 false.

(** ** Rust results and panics *)

Inductive Result (A E : Type) : Type :=
| Ok (a : A)
| Err (e : E).
Arguments Ok {A E} a.
Arguments Err {A E} e.

Definition is_ok {A E} (r : Result A E) : bool :=
  match r with Ok _ => true | Err _ => false end.

Definition map_ok {A B E} (f : A -> B) (r : Result A E) : Result B E :=
  match r with Ok a => Ok (f a) | Err e => Err e end.

(** The outcome of Rust code that may panic: [Ret a] returns [a],
    [Panic] aborts (an [unwrap] on [None], an index out of bounds, an
    explicit [panic!]). *)
Inductive Outcome (A : Type) : Type :=
| Ret (a : A)
| Panic.
Arguments Ret {A} a.
Arguments Panic {A}.

Definition bind {A B} (o : Outcome A) (k : A -> Outcome B) : Outcome B :=
  match o with Ret a => k a | Panic => Panic end.

Notation "'let*' x ':=' c 'in' k" := (bind c (fun x => k))
  (at level 200, x name, c at level 100, k at level 200).

(** [o.unwrap()] on an [Option]. *)
Definition unwrap {A} (o : option A) : Outcome A :=
  match o with Some a => Ret a | None => Panic end.

(** [v[i]] on a [Vec]: panics out of bounds. *)
Definition index {A} (v : list A) (i : nat) : Outcome A := unwrap (nth_error v i).

(** [xs.iter().map(f).collect()] where [f] may panic: the first panic
    aborts the loop. *)
Fixpoint map_panicking {A B} (f : A -> Outcome B) (xs : list A) : Outcome (list B) :=
  match xs with
  | [] => Ret []
  | x :: xs' =>
      let* y := f x in
      let* ys := map_panicking f xs' in
      Ret (y :: ys)
  end.

(** ** msgpack values ([rmpv::Value], re-exported by [msgpack_rpc]) *)

Module Value.

(** An [Integer] holds a u64 or an i64, so a [Z] in
    [-2^63, 2^64). *)
Inductive Value : Type :=
| Nil
| Boolean (b : bool)
| Integer (n : Z)
| F32 (f : f32)
| F64 (f : f64)
| String (s : string)
| Binary (bs : list Byte.byte)
| Array (vs : list Value)
| Map (kvs : list (Value * Value))
| Ext (tag : Z) (bs : list Byte.byte).

Definition as_map (v : Value) : option (list (Value * Value)) :=
  match v with Map kvs => Some kvs | _ => None end.

Definition as_bool (v : Value) : option bool :=
  match v with Boolean b => Some b | _ => None end.

(** [as_u64]: a non-negative integer, [None] otherwise. *)
Definition as_u64 (v : Value) : option Z :=
  match v with
  | Integer n => if 0 <=? n then Some n else None
  | _ => None
  end.

(** [as_f64]: any integer or float, widened or converted to f64. *)
Definition as_f64 (v : Value) : option f64 :=
  match v with
  | Integer n => Some (int_as_f64 n)
  | F32 f => Some (f32_as_f64 f)
  | F64 f => Some f
  | _ => None
  end.

(** [as_slice]: the bytes of a [Binary] or of a [String]. *)
Definition as_slice (v : Value) : option (list Byte.byte) :=
  match v with
  | Binary bs => Some bs
  | String s => Some (list_byte_of_string s)
  | _ => None
  end.

End Value.

Notation Value := Value.Value.

(** [msgpack_rpc::message::Response]: the request id and the result
    slot ([Err] carries the server's error payload). *)
Record Response : Type := {
  id : Z;
  result : Result Value Value
}.

(** [payload[i].1] *)
Definition field (payload : list (Value * Value)) (i : nat) : Outcome Value :=
  let* kv := index payload i in Ret (snd kv).

(** [v.as_f64().unwrap() as f32] *)
Definition f32_of (v : Value) : Outcome f32 :=
  let* p := unwrap (Value.as_f64 v) in Ret (f64_as_f32 p).

(** ** Geometry: src/types/vector.rs, src/types/quaternion.rs *)

Module Vector3.

Record Vector3 : Type := { x : f32; y : f32; z : f32 }.

(** [Vector3::as_msgpack]: a Map built literally, read back with
    [as_map().unwrap()] and rewrapped. *)
Definition as_msgpack (self : Vector3) : Outcome Value :=
  let val := Value.Map [
    (Value.String "x_val", Value.F32 (x self));
    (Value.String "y_val", Value.F32 (y self));
    (Value.String "z_val", Value.F32 (z self))] in
  let* msg := unwrap (Value.as_map val) in
  Ret (Value.Map msg).

(** [impl From<Value> for Vector3]: every entry of the map is converted
    (keys ignored), then positions 0, 1, 2 are read. *)
Definition from (msgpack : Value) : Outcome Vector3 :=
  let* payload := unwrap (Value.as_map msgpack) in
  let* points := map_panicking (fun '(_, v) => f32_of v) payload in
  let* x := index points 0 in
  let* y := index points 1 in
  let* z := index points 2 in
  Ret {| x := x; y := y; z := z |}.

End Vector3.

Module Quaternionr.

(** [Quaternionr(Quaternion<f32>)]; [Quaternion::new(w, i, j, k)]. *)
Record Quaternionr : Type := { w : f32; i : f32; j : f32; k : f32 }.

(** [impl From<Value> for Quaternionr] *)
Definition from (msgpack : Value) : Outcome Quaternionr :=
  let* payload := unwrap (Value.as_map msgpack) in
  let* points := map_panicking (fun '(_, v) => f32_of v) payload in
  let* p0 := index points 0 in
  let* p1 := index points 1 in
  let* p2 := index points 2 in
  let* p3 := index points 3 in
  Ret {| w := p0; i := p1; j := p2; k := p3 |}.

End Quaternionr.

Module GeoPoint.

Record GeoPoint : Type := { latitude : f64; longitude : f64; altitude : f64 }.

(** Modelled from the spec: [impl From<Value> for GeoPoint] of
    src/types/geopoint.rs, not in the sources.  The spec gives GeoPoint
    as the fields (lat, lon, alt) of a Map read positionally, like
    Vector3; [From<Value>] is infallible, so a malformed payload
    panics. *)
Definition from (msgpack : Value) : Outcome GeoPoint :=
  let* payload := unwrap (Value.as_map msgpack) in
  let* points := map_panicking (fun '(_, v) => unwrap (Value.as_f64 v)) payload in
  let* la := index points 0 in
  let* lo := index points 1 in
  let* al := index points 2 in
  Ret {| latitude := la; longitude := lo; altitude := al |}.

End GeoPoint.

(** ** Sensors: src/types/sensors.rs *)

Module ImageType.

Inductive ImageType : Type :=
| Scene
| DepthPlanar
| DepthPerspective
| DepthVis
| DisparityNormalized
| SurfaceNormals
| Infrared
| OpticalFlow
| OpticalFlowVis.

(** [ImageType::as_msgpack] *)
Definition as_msgpack (self : ImageType) : Value :=
  let val := match self with
             | Scene => 0
             | DepthPlanar => 1
             | DepthPerspective => 2
             | DepthVis => 3
             | DisparityNormalized => 4
             | SurfaceNormals => 5
             | Infrared => 6
             | OpticalFlow => 7
             | OpticalFlowVis => 8
             end in
  Value.Integer val.

End ImageType.

Module ImuData.

Record ImuData : Type := {
  timestamp : Z;
  orientation : Quaternionr.Quaternionr;
  angular_velocity : Vector3.Vector3;
  linear_acceleration : Vector3.Vector3
}.

(** [impl From<Response> for ImuData] *)
Definition from (msgpack : Response) : Outcome ImuData :=
  match result msgpack with
  | Ok res =>
      let* payload := unwrap (Value.as_map res) in
      let* f0 := field payload 0 in
      let* timestamp := unwrap (Value.as_u64 f0) in
      let* f1 := field payload 1 in
      let* orientation := Quaternionr.from f1 in
      let* f2 := field payload 2 in
      let* angular_velocity := Vector3.from f2 in
      let* f3 := field payload 3 in
      let* linear_acceleration := Vector3.from f3 in
      Ret {| timestamp := timestamp; orientation := orientation;
             angular_velocity := angular_velocity;
             linear_acceleration := linear_acceleration |}
  | Err _ => Panic
  end.

End ImuData.

Module MagnetometerData.

Record MagnetometerData : Type := {
  timestamp : Z;
  magnetic_field : Vector3.Vector3;
  magnetic_field_covariance : f32
}.

(** [impl From<Response> for MagnetometerData]: position 2 is not read
    (the line reading it is commented out) and the covariance is the
    literal [0.0]. *)
Definition from (msgpack : Response) : Outcome MagnetometerData :=
  match result msgpack with
  | Ok res =>
      let* payload := unwrap (Value.as_map res) in
      let* f0 := field payload 0 in
      let* timestamp := unwrap (Value.as_u64 f0) in
      let* f1 := field payload 1 in
      let* magnetic_field := Vector3.from f1 in
      Ret {| timestamp := timestamp; magnetic_field := magnetic_field;
             magnetic_field_covariance := S754_zero false |}
  | Err _ => Panic
  end.

End MagnetometerData.

Module BarometerData.

Record BarometerData : Type := {
  timestamp : Z;
  altitude : f32;
  pressure : f32;
  qnh : f32
}.

(** [impl From<Response> for BarometerData] *)
Definition from (msgpack : Response) : Outcome BarometerData :=
  match result msgpack with
  | Ok res =>
      let* payload := unwrap (Value.as_map res) in
      let* f0 := field payload 0 in
      let* timestamp := unwrap (Value.as_u64 f0) in
      let* f1 := field payload 1 in
      let* pressure := f32_of f1 in
      let* f2 := field payload 2 in
      let* altitude := f32_of f2 in
      let* f3 := field payload 3 in
      let* qnh := f32_of f3 in
      Ret {| timestamp := timestamp; altitude := altitude;
             pressure := pressure; qnh := qnh |}
  | Err _ => Panic
  end.

End BarometerData.

Module GnssReport.

Inductive GnssFixType : Type :=
| GnssFixNoFix
| GnssFixTimeOnly
| GnssFix2DFix
| GnssFix3DFix.

Record GnssReport : Type := {
  geo_point : GeoPoint.GeoPoint;
  eph : f32;
  epv : f32;
  velocity : Vector3.Vector3;
  fix_type : GnssFixType;
  time_utc : Z
}.

(** The [match] on the fix-type code: [panic!("Invalid GNSS fix
    type")] on any other code. *)
Definition fix_type_of_code (n : Z) : Outcome GnssFixType :=
  match n with
  | 0 => Ret GnssFixNoFix
  | 1 => Ret GnssFixTimeOnly
  | 2 => Ret GnssFix2DFix
  | 3 => Ret GnssFix3DFix
  | _ => Panic
  end.

(** [impl From<Value> for GnssReport] *)
Definition from (msgpack : Value) : Outcome GnssReport :=
  let* payload := unwrap (Value.as_map msgpack) in
  let* f0 := field payload 0 in
  let* geo_point := GeoPoint.from f0 in
  let* f1 := field payload 1 in
  let* eph := f32_of f1 in
  let* f2 := field payload 2 in
  let* epv := f32_of f2 in
  let* f3 := field payload 3 in
  let* velocity := Vector3.from f3 in
  let* f4 := field payload 4 in
  let* code := unwrap (Value.as_u64 f4) in
  let* fix_type := fix_type_of_code code in
  let* f5 := field payload 5 in
  let* time_utc := unwrap (Value.as_u64 f5) in
  Ret {| geo_point := geo_point; eph := eph; epv := epv;
         velocity := velocity; fix_type := fix_type; time_utc := time_utc |}.

End GnssReport.

Module GpsData.

Record GpsData : Type := {
  timestamp : Z;
  gnss_report : GnssReport.GnssReport;
  is_valid : bool
}.

(** [impl From<Response> for GpsData] (the [println!] before the panic
    is not modelled). *)
Definition from (msgpack : Response) : Outcome GpsData :=
  match result msgpack with
  | Ok res =>
      let* payload := unwrap (Value.as_map res) in
      let* f0 := field payload 0 in
      let* timestamp := unwrap (Value.as_u64 f0) in
      let* f1 := field payload 1 in
      let* gnss_report := GnssReport.from f1 in
      let* f2 := field payload 2 in
      let* is_valid := unwrap (Value.as_bool f2) in
      Ret {| timestamp := timestamp; gnss_report := gnss_report;
             is_valid := is_valid |}
  | Err _ => Panic
  end.

End GpsData.

(** ** Environment: src/types/environment.rs *)

Module EnvironmentState.

Record EnvironmentState : Type := {
  position : Vector3.Vector3;
  geo_point : GeoPoint.GeoPoint;
  gravity : Vector3.Vector3;
  air_pressure : f32;
  air_temperature : f32;
  air_density : f32
}.

(** [impl From<Response> for EnvironmentState] *)
Definition from (msgpack : Response) : Outcome EnvironmentState :=
  match result msgpack with
  | Ok res =>
      let* payload := unwrap (Value.as_map res) in
      let* f0 := field payload 0 in
      let* position := Vector3.from f0 in
      let* f1 := field payload 1 in
      let* geo_point := GeoPoint.from f1 in
      let* f2 := field payload 2 in
      let* gravity := Vector3.from f2 in
      let* f3 := field payload 3 in
      let* air_pressure := f32_of f3 in
      let* f4 := field payload 4 in
      let* air_temperature := f32_of f4 in
      let* f5 := field payload 5 in
      let* air_density := f32_of f5 in
      Ret {| position := position; geo_point := geo_point; gravity := gravity;
             air_pressure := air_pressure; air_temperature := air_temperature;
             air_density := air_density |}
  | Err _ => Panic
  end.

End EnvironmentState.

Module CompressedImage.

(** [CompressedImage(pub Vec<u8>)] *)
Record CompressedImage : Type := { pixels : list Byte.byte }.

(** [impl From<Response> for CompressedImage]: the bytes of the result
    are pushed one by one onto an empty vector. *)
Definition from (msgpack : Response) : Outcome CompressedImage :=
  match result msgpack with
  | Ok res =>
      let* slice := unwrap (Value.as_slice res) in
      let pixels := fold_left (fun acc p => acc ++ [p]) slice [] in
      Ret {| pixels := pixels |}
  | Err _ => Panic
  end.

End CompressedImage.

Module ImageRequest.

Record ImageRequest : Type := {
  camera_name : string;
  image_type : ImageType.ImageType;
  pixels_as_float : bool;
  compress : bool
}.

(** [ImageRequest::as_msgpack] *)
Definition as_msgpack (self : ImageRequest) : Outcome Value :=
  let val := Value.Map [
    (Value.String "camera_name", Value.String (camera_name self));
    (Value.String "image_type", ImageType.as_msgpack (image_type self));
    (Value.String "pixels_as_float", Value.Boolean (pixels_as_float self));
    (Value.String "compress", Value.Boolean (compress self))] in
  let* msg := unwrap (Value.as_map val) in
  Ret (Value.Map msg).

End ImageRequest.

Module ImageRequests.

(** [ImageRequests(pub Vec<ImageRequest>)] *)
Definition ImageRequests := list ImageRequest.ImageRequest.

(** [ImageRequests::as_msgpack] *)
Definition as_msgpack (self : ImageRequests) : Outcome Value :=
  let* images := map_panicking ImageRequest.as_msgpack self in
  Ret (Value.Array images).

End ImageRequests.

Module DistanceSensorData.

Section WithPose.

(** [crate::Pose3], declared in src/types/pose.rs, which is not in the
    sources. *)
Variable Pose3 : Type.

(** [impl From<Value> for Pose3], not in the sources: left as a
    parameter. *)
Variable pose3_from : Value -> Outcome Pose3.

Record DistanceSensorData : Type := {
  timestamp : Z;
  distance : f32;
  min_distance : f32;
  max_distance : f32;
  relative_pose : Pose3
}.

(** [impl From<Response> for DistanceSensorData] *)
Definition from (msgpack : Response) : Outcome DistanceSensorData :=
  match result msgpack with
  | Ok res =>
      let* payload := unwrap (Value.as_map res) in
      let* f0 := field payload 0 in
      let* timestamp := unwrap (Value.as_u64 f0) in
      let* f1 := field payload 1 in
      let* distance := f32_of f1 in
      let* f2 := field payload 2 in
      let* min_distance := f32_of f2 in
      let* f3 := field payload 3 in
      let* max_distance := f32_of f3 in
      let* f4 := field payload 4 in
      let* relative_pose := pose3_from f4 in
      Ret {| timestamp := timestamp; distance := distance;
             min_distance := min_distance; max_distance := max_distance;
             relative_pose := relative_pose |}
  | Err _ => Panic
  end.

End WithPose.

End DistanceSensorData.

(** ** Command arguments *)

Module Position.

(** [crate::types::pose::Position], as used by
    src/clients/multi_rotor_client.rs: three [f32] coordinates. *)
Record Position : Type := { x : f32; y : f32; z : f32 }.

End Position.

Module DrivetrainType.

Inductive DrivetrainType : Type :=
| MaxDegreeOfFreedom
| ForwardOnly.

(** Modelled from the spec: [DrivetrainType::to_msgpack] of
    src/types/drive_train.rs, not in the sources.  The spec's table:
    MaxDegreeOfFreedom = 0, ForwardOnly = 1, encoded as an integer. *)
Definition to_msgpack (self : DrivetrainType) : Value :=
  match self with
  | MaxDegreeOfFreedom => Value.Integer 0
  | ForwardOnly => Value.Integer 1
  end.

End DrivetrainType.

Module YawMode.

Record YawMode : Type := { is_rate : bool; yaw_or_rate : f32 }.

(** Modelled from the spec: [YawMode::to_msgpack] of
    src/types/yaw_mode.rs, not in the sources.  The spec gives YawMode
    as (is_rate: bool, yaw_or_rate: float32), encoded as a Map in that
    field order. *)
Definition to_msgpack (self : YawMode) : Value :=
  Value.Map [
    (Value.String "is_rate", Value.Boolean (is_rate self));
    (Value.String "yaw_or_rate", Value.F32 (yaw_or_rate self))].

End YawMode.

(** ** The multirotor facade: src/clients/multi_rotor_client.rs *)

Module MultiRotorClient.

Record MultiRotorClient : Type := { vehicle_name : string }.

(** [lookahead.unwrap_or(d) as i64] for an [Option<i32>]. *)
Definition unwrap_or (o : option Z) (d : Z) : Z :=
  match o with Some v => v | None => d end.

(** The method name and parameter list that [move_to_position_async]
    passes to [unary_rpc]. *)
Definition move_to_position_request (position : Position.Position)
    (velocity timeout_sec : f32) (drivetrain : DrivetrainType.DrivetrainType)
    (yaw_mode : YawMode.YawMode) (lookahead adaptive_lookahead : option Z)
    : string * option (list Value) :=
  let lookahead := unwrap_or lookahead (-1) in
  let adaptive_lookahead := unwrap_or adaptive_lookahead 0 in
  ("moveToPositionAsync"%string,
   Some [Value.F32 (Position.x position);
         Value.F32 (Position.y position);
         Value.F32 (Position.z position);
         Value.F32 velocity;
         Value.F32 timeout_sec;
         DrivetrainType.to_msgpack drivetrain;
         YawMode.to_msgpack yaw_mode;
         Value.Integer lookahead;
         Value.Integer adaptive_lookahead]).

(** The method name and parameter list that [take_off_async] passes to
    [unary_rpc]. *)
Definition take_off_request (self : MultiRotorClient) (timeout_sec : Z)
    : string * option (list Value) :=
  ("takeoff"%string,
   Some [Value.Integer timeout_sec; Value.String (vehicle_name self)]).

Section Calls.

(** The error type of [NetworkResult]. *)
Variable NetworkError : Type.

(** [self.airsim_client.unary_rpc(method, params).await.map_err(Into::into)]:
    the transport's answer to a request. *)
Variable unary_rpc : string -> option (list Value) -> Result Response NetworkError.

(** [MultiRotorClient::take_off_async].  The [Err] arm of the inner
    match is never taken: [&&] stops when [is_ok()] is false. *)
Definition take_off_async (self : MultiRotorClient) (timeout_sec : Z)
    : Result bool NetworkError :=
  let '(method, params) := take_off_request self timeout_sec in
  map_ok (fun response =>
            is_ok (result response) &&
            match result response with
            | Ok v => match Value.as_bool v with Some true => true | _ => false end
            | Err _ => false
            end)
         (unary_rpc method params).

(** [MultiRotorClient::move_to_position_async] (the [println!] is not
    modelled). *)
Definition move_to_position_async (self : MultiRotorClient)
    (position : Position.Position) (velocity timeout_sec : f32)
    (drivetrain : DrivetrainType.DrivetrainType) (yaw_mode : YawMode.YawMode)
    (lookahead adaptive_lookahead : option Z) : Result bool NetworkError :=
  let '(method, params) :=
    move_to_position_request position velocity timeout_sec drivetrain
      yaw_mode lookahead adaptive_lookahead in
  map_ok (fun response => let x := result response in is_ok x)
         (unary_rpc method params).

End Calls.

End MultiRotorClient.

(** ** Sample payloads *)

Definition zero32 : f32 := S754_zero false.
Definition zero64 : f64 := S754_zero false.

(** A well-formed GnssReport payload with fix-type code [code]. *)
Definition gnss_payload (code : Z) : list (Value * Value) :=
  [
    (Value.String "geo_point",
       Value.Map [(Value.String "latitude", Value.F64 zero64);
                  (Value.String "longitude", Value.F64 zero64);
                  (Value.String "altitude", Value.F64 zero64)]);
    (Value.String "eph", Value.F32 zero32);
    (Value.String "epv", Value.F32 zero32);
    (Value.String "velocity",
       Value.Map [(Value.String "x_val", Value.F32 zero32);
                  (Value.String "y_val", Value.F32 zero32);
                  (Value.String "z_val", Value.F32 zero32)]);
    (Value.String "fix_type", Value.Integer code);
    (Value.String "time_utc", Value.Integer 0)].

Definition gnss_sample (code : Z) : Value := Value.Map (gnss_payload code).

(** [true] when [v] is not a Map, or is a Map with fewer than [n]
    entries. *)
Definition short_map (n : nat) (v : Value) : bool :=
  match Value.as_map v with
  | None => true
  | Some payload => Nat.ltb (List.length payload) n
  end.

(** A transport that answers every request with [Ok(Bool(b))]. *)
Definition stub_reply (b : bool) : string -> option (list Value) -> Result Response unit :=
  fun _ _ => Ok {| id := 0; result := Ok (Value.Boolean b) |}.

Definition origin : Position.Position :=
  {| Position.x := zero32; Position.y := zero32; Position.z := S754_finite true 8388608 (-22) |}.

Definition level_yaw : YawMode.YawMode := {| YawMode.is_rate := false; YawMode.yaw_or_rate := zero32 |}.

(** ** Lemmas on the float conversions *)

Lemma iter_pos_as_iter {A} (f : A -> A) (p : positive) (x : A) :
  iter_pos f p x = Pos.iter f x p.
Proof.
  revert x; induction p as [p IH|p IH|]; intro x; simpl; try reflexivity.
  - rewrite !IH, !Pos.iter_swap. reflexivity.
  - rewrite !IH. reflexivity.
Qed.

(** Shifting [m] left [p] times and then right [p] times is exact. *)
Lemma shr_1_shifted (m p : positive) :
  Pos.iter shr_1 {| shr_m := Zpos (Pos.iter xO m p); shr_r := false; shr_s := false |} p
  = {| shr_m := Zpos m; shr_r := false; shr_s := false |}.
Proof.
  revert m; induction p as [|p IH] using Pos.peano_ind; intro m.
  - reflexivity.
  - rewrite (Pos.iter_succ p _ xO m), (Pos.iter_succ_r p _ shr_1).
    exact (IH m).
Qed.

Lemma digits2_shifted (m p : positive) :
  digits2_pos (Pos.iter xO m p) = (digits2_pos m + p)%positive.
Proof.
  induction p as [|p IH] using Pos.peano_ind.
  - simpl. now rewrite Pos.add_1_r.
  - rewrite Pos.iter_succ. simpl. rewrite IH. now rewrite Pos.add_succ_r.
Qed.

(** Widening a finite binary32 number to binary64 is exact: the
    mantissa is shifted to 53 digits. *)
Lemma widen_exact (s : bool) (m : positive) (e : Z) :
  valid_binary prec32 emax32 (S754_finite s m e) = true ->
  binary_round prec64 emax64 s m e
  = S754_finite s (Pos.iter xO m (Z.to_pos (53 - Zpos (digits2_pos m))))
                  (Zpos (digits2_pos m) + e - 53).
Proof.
  intro H.
  unfold valid_binary, bounded, canonical_mantissa in H.
  apply andb_prop in H; destruct H as [H1 H2].
  apply Z.eqb_eq in H1; apply Z.leb_le in H2.
  unfold fexp, emin, prec32, emax32 in H1, H2.
  pose proof (Pos2Z.is_pos (digits2_pos m)) as Hd.
  set (q := Z.to_pos (53 - Zpos (digits2_pos m))).
  assert (Eq : Zpos q = 53 - Zpos (digits2_pos m)) by (apply Z2Pos.id; lia).
  assert (E0 : fexp prec64 emax64 (Zpos (digits2_pos m) + e) = Zpos (digits2_pos m) + e - 53).
  { unfold fexp, emin, prec64, emax64. lia. }
  assert (E1 : fexp prec64 emax64 (Zpos (digits2_pos m) + e) - e = Zneg q).
  { rewrite E0, <- Pos2Z.opp_pos. lia. }
  unfold binary_round, shl_align. rewrite E1, E0.
  unfold binary_round_aux, shr_fexp, Zdigits2.
  rewrite digits2_shifted, Pos2Z.inj_add, Eq.
  replace (Z.pos (digits2_pos m) + (53 - Z.pos (digits2_pos m)) + (Z.pos (digits2_pos m) + e - 53))
    with (Z.pos (digits2_pos m) + e) by lia.
  rewrite E0, Z.sub_diag.
  cbn [shr shr_record_of_loc shr_m loc_of_shr_record round_nearest_even].
  rewrite digits2_shifted, Pos2Z.inj_add, Eq.
  replace (Z.pos (digits2_pos m) + (53 - Z.pos (digits2_pos m)) + (Z.pos (digits2_pos m) + e - 53))
    with (Z.pos (digits2_pos m) + e) by lia.
  rewrite E0, Z.sub_diag.
  cbn [shr shr_record_of_loc shr_m].
  replace (Z.pos (digits2_pos m) + e - 53 <=? emax64 - prec64) with true
    by (symmetry; apply Z.leb_le; unfold emax64, prec64; lia).
  reflexivity.
Qed.

(** Rounding that binary64 number back to binary32 gives the original. *)
Lemma narrow_exact (s : bool) (m : positive) (e : Z) :
  valid_binary prec32 emax32 (S754_finite s m e) = true ->
  binary_round prec32 emax32 s (Pos.iter xO m (Z.to_pos (53 - Zpos (digits2_pos m))))
    (Zpos (digits2_pos m) + e - 53)
  = S754_finite s m e.
Proof.
  intro H.
  unfold valid_binary, bounded, canonical_mantissa in H.
  apply andb_prop in H; destruct H as [H1 H2].
  apply Z.eqb_eq in H1; apply Z.leb_le in H2.
  pose proof (Pos2Z.is_pos (digits2_pos m)) as Hd.
  assert (Hd24 : Zpos (digits2_pos m) <= 24)
    by (unfold fexp, emin, prec32, emax32 in H1; lia).
  set (q := Z.to_pos (53 - Zpos (digits2_pos m))).
  assert (Eq : Zpos q = 53 - Zpos (digits2_pos m)) by (apply Z2Pos.id; lia).
  unfold binary_round, shl_align.
  rewrite digits2_shifted, Pos2Z.inj_add, Eq.
  replace (Z.pos (digits2_pos m) + (53 - Z.pos (digits2_pos m)) + (Z.pos (digits2_pos m) + e - 53))
    with (Z.pos (digits2_pos m) + e) by lia.
  rewrite H1.
  replace (e - (Z.pos (digits2_pos m) + e - 53)) with (Zpos q) by lia.
  unfold binary_round_aux, shr_fexp, Zdigits2.
  rewrite digits2_shifted, Pos2Z.inj_add, Eq.
  replace (Z.pos (digits2_pos m) + (53 - Z.pos (digits2_pos m)) + (Z.pos (digits2_pos m) + e - 53))
    with (Z.pos (digits2_pos m) + e) by lia.
  rewrite H1.
  replace (e - (Z.pos (digits2_pos m) + e - 53)) with (Zpos q) by lia.
  unfold shr. rewrite iter_pos_as_iter.
  cbn [shr_record_of_loc]. rewrite shr_1_shifted.
  cbn [shr_m loc_of_shr_record round_nearest_even shr_record_of_loc].
  replace (Z.pos (digits2_pos m) + e - 53 + Z.pos q) with e by lia.
  rewrite H1, Z.sub_diag. cbn [shr_m].
  replace (e <=? emax32 - prec32) with true by (symmetry; apply Z.leb_le; exact H2).
  reflexivity.
Qed.

(** [(x as f64) as f32 == x] for every finite [x : f32]. *)
Lemma f32_roundtrip (x : f32) :
  is_finite32 x = true -> f64_as_f32 (f32_as_f64 x) = x.
Proof.
  destruct x as [s|s| |s m e]; simpl; intro H; try reflexivity; try discriminate.
  rewrite widen_exact by exact H. unfold f64_as_f32. now apply narrow_exact.
Qed.

(** [1 + 2^-52] (binary64) rounds to [1.0f32]; [1 + 3 * 2^-24] rounds
    up to [1 + 2^-22] (a tie, to even). *)
Example f64_as_f32_rounds :
  f64_as_f32 (S754_finite false (2^52 + 1) (-52)) = S754_finite false 8388608 (-23) /\
  f64_as_f32 (S754_finite false (2^24 + 3) (-24)) = S754_finite false (2^23 + 2) (-23).
Proof. split; reflexivity. Qed.

(** ** Lemmas on the panic monad and positional access *)

Lemma bind_ret_inv {A B} (o : Outcome A) (k : A -> Outcome B) (b : B) :
  bind o k = Ret b -> exists a, o = Ret a /\ k a = Ret b.
Proof. destruct o as [a|]; simpl; [eauto | discriminate]. Qed.

Lemma bind_panic_r {A B} (o : Outcome A) (k : A -> Outcome B) :
  (forall a, k a = Panic) -> bind o k = Panic.
Proof. destruct o; simpl; auto. Qed.

Lemma field_out (payload : list (Value * Value)) (n : nat) :
  (List.length payload <= n)%nat -> field payload n = Panic.
Proof.
  intro H. unfold field, index. now rewrite (proj2 (nth_error_None _ _) H).
Qed.

Lemma bind_field_out {B} (payload : list (Value * Value)) (n : nat) (k : Value -> Outcome B) :
  (List.length payload <= n)%nat -> bind (field payload n) k = Panic.
Proof. intro H. now rewrite field_out. Qed.

(** [payload[i].1] only depends on the values of the map. *)
Lemma field_values (payload : list (Value * Value)) (n : nat) :
  field payload n = unwrap (nth_error (map snd payload) n).
Proof.
  unfold field, index. rewrite nth_error_map.
  destruct (nth_error payload n); reflexivity.
Qed.

(** A loop over the entries of a map that ignores the keys only depends on
    the values. *)
Lemma map_panicking_values {B} (g : Value -> Outcome B) (payload : list (Value * Value)) :
  map_panicking (fun '(_, v) => g v) payload = map_panicking g (map snd payload).
Proof.
  induction payload as [|[k v] payload IH]; simpl; [reflexivity|].
  now rewrite IH.
Qed.

Lemma fix_type_of_code_out (c : Z) :
  3 < c -> GnssReport.fix_type_of_code c = Panic.
Proof.
  intro H. unfold GnssReport.fix_type_of_code.
  destruct c as [|p|p]; try lia.
  destruct p as [[]|[]|]; try reflexivity; lia.
Qed.

Lemma bind_index_out {A B} (xs : list A) (n : nat) (k : A -> Outcome B) :
  (List.length xs <= n)%nat -> bind (index xs n) k = Panic.
Proof.
  intro H. unfold index. now rewrite (proj2 (nth_error_None _ _) H).
Qed.

Lemma map_panicking_length {A B} (f : A -> Outcome B) (xs : list A) (ys : list B) :
  map_panicking f xs = Ret ys -> List.length ys = List.length xs.
Proof.
  revert ys; induction xs as [|x xs IH]; intros ys H; simpl in H.
  - now injection H as <-.
  - destruct (f x); [|discriminate]. simpl in H.
    destruct (map_panicking f xs) as [ys'|] eqn:E; [|discriminate].
    injection H as <-. simpl. now rewrite (IH ys').
Qed.

(** Strips the binds of a decoder until one reads past the end of a
    vector. *)
Ltac panics_after :=
  repeat (first [ apply bind_field_out; simpl; lia
                | apply bind_index_out; simpl; lia
                | apply bind_panic_r; intro ]).

Ltac ret_inv H :=
  repeat match type of H with
  | bind _ _ = Ret _ =>
      let a := fresh "a" in let Ha := fresh "Ha" in
      apply bind_ret_inv in H; destruct H as [a [Ha H]]
  end.

(** ** The claims *)

(** C9: [Vector3::as_msgpack] produces a Map of exactly three pairs, keys
    "x_val", "y_val", "z_val" in that order, whose values are the
    components as 32-bit floats ([F32], not widened to [F64]). *)
Theorem vector3_as_msgpack_shape (v : Vector3.Vector3) :
  Vector3.as_msgpack v =
  Ret (Value.Map [(Value.String "x_val", Value.F32 (Vector3.x v));
                  (Value.String "y_val", Value.F32 (Vector3.y v));
                  (Value.String "z_val", Value.F32 (Vector3.z v))]).
Proof. reflexivity. Qed.

(** C7: [ImageType::as_msgpack] encodes the nine variants as the integers
    0 to 8 in declaration order. *)
Theorem image_type_codes :
  ImageType.as_msgpack ImageType.Scene = Value.Integer 0 /\
  ImageType.as_msgpack ImageType.DepthPlanar = Value.Integer 1 /\
  ImageType.as_msgpack ImageType.DepthPerspective = Value.Integer 2 /\
  ImageType.as_msgpack ImageType.DepthVis = Value.Integer 3 /\
  ImageType.as_msgpack ImageType.DisparityNormalized = Value.Integer 4 /\
  ImageType.as_msgpack ImageType.SurfaceNormals = Value.Integer 5 /\
  ImageType.as_msgpack ImageType.Infrared = Value.Integer 6 /\
  ImageType.as_msgpack ImageType.OpticalFlow = Value.Integer 7 /\
  ImageType.as_msgpack ImageType.OpticalFlowVis = Value.Integer 8.
Proof. repeat split. Qed.

(** C2: for a Vector3 with finite components, decoding its encoding gives
    back the same vector, component for component (the f32 -> f64 -> f32
    conversion is exact). *)
Theorem vector3_roundtrip (v : Vector3.Vector3) :
  is_finite32 (Vector3.x v) = true ->
  is_finite32 (Vector3.y v) = true ->
  is_finite32 (Vector3.z v) = true ->
  (let* w := Vector3.as_msgpack v in Vector3.from w) = Ret v.
Proof.
  destruct v as [x y z]; simpl; intros Hx Hy Hz.
  unfold Vector3.from, f32_of; cbn.
  rewrite !f32_roundtrip by assumption. reflexivity.
Qed.

Lemma vector3_roundtrip_witness :
  let v := {| Vector3.x := S754_finite false 8388608 (-23);
              Vector3.y := S754_zero true;
              Vector3.z := S754_finite true 1 (-149) |} in
  is_finite32 (Vector3.x v) = true /\ is_finite32 (Vector3.y v) = true /\
  is_finite32 (Vector3.z v) = true /\
  (let* w := Vector3.as_msgpack v in Vector3.from w) = Ret v.
Proof.
  intro v. split; [reflexivity|]. split; [reflexivity|]. split; [reflexivity|].
  apply vector3_roundtrip; reflexivity.
Defined.

(** C5: [move_to_position_async] sends method "moveToPositionAsync" with
    exactly nine parameters in the order x, y, z, velocity, timeout_sec
    (as [F32]), drivetrain (an integer), yaw_mode (a Map), lookahead and
    adaptive_lookahead (integers); lookahead defaults to -1 and
    adaptive_lookahead to 0 when left unspecified. *)
Theorem move_to_position_params
    (position : Position.Position) (velocity timeout_sec : f32)
    (drivetrain : DrivetrainType.DrivetrainType) (yaw_mode : YawMode.YawMode)
    (lookahead adaptive_lookahead : option Z) :
  exists params,
    MultiRotorClient.move_to_position_request position velocity timeout_sec
      drivetrain yaw_mode lookahead adaptive_lookahead
    = ("moveToPositionAsync"%string, Some params) /\
    List.length params = 9%nat /\
    firstn 5 params = [Value.F32 (Position.x position); Value.F32 (Position.y position);
                       Value.F32 (Position.z position); Value.F32 velocity;
                       Value.F32 timeout_sec] /\
    (exists code, nth_error params 5 = Some (Value.Integer code)) /\
    (exists kvs, nth_error params 6 = Some (Value.Map kvs)) /\
    nth_error params 7 = Some (Value.Integer (match lookahead with Some l => l | None => -1 end)) /\
    nth_error params 8 = Some (Value.Integer
                                 (match adaptive_lookahead with Some a => a | None => 0 end)).
Proof.
  eexists. split; [reflexivity|].
  split; [reflexivity|]. split; [reflexivity|].
  split; [destruct drivetrain; eexists; reflexivity|].
  split; [eexists; reflexivity|].
  split; reflexivity.
Qed.

(** C8: whatever the payload, a MagnetometerData that decodes has
    [magnetic_field_covariance = 0.0]: the wire's covariance entry is never
    read. *)
Theorem magnetometer_covariance_zero (msgpack : Response) (m : MagnetometerData.MagnetometerData) :
  MagnetometerData.from msgpack = Ret m ->
  MagnetometerData.magnetic_field_covariance m = S754_zero false.
Proof.
  unfold MagnetometerData.from. destruct (result msgpack) as [res|err]; [|discriminate].
  intro H. ret_inv H. injection H as <-. reflexivity.
Qed.

Lemma magnetometer_covariance_zero_witness :
  let r := {| id := 7;
              result := Ok (Value.Map [
                (Value.String "time_stamp", Value.Integer 42);
                (Value.String "magnetic_field_body",
                   Value.Map [(Value.String "x_val", Value.F32 zero32);
                              (Value.String "y_val", Value.F32 zero32);
                              (Value.String "z_val", Value.F32 zero32)]);
                (Value.String "magnetic_field_covariance",
                   Value.F32 (S754_finite false 8388608 (-23)))]) |} in
  exists m, MagnetometerData.from r = Ret m /\
            MagnetometerData.magnetic_field_covariance m = S754_zero false.
Proof.
  intro r. eexists. split; [reflexivity|].
  apply (magnetometer_covariance_zero r). reflexivity.
Defined.

(** C4: the decoders read a Map by position: two Maps with the same
    sequence of values decode to the same result, whatever their keys.
    This holds for every decoder, DistanceSensorData included, whatever
    its Pose3 decoder. *)
Theorem decoders_ignore_keys (p1 p2 : list (Value * Value)) :
  map snd p1 = map snd p2 ->
  Vector3.from (Value.Map p1) = Vector3.from (Value.Map p2) /\
  Quaternionr.from (Value.Map p1) = Quaternionr.from (Value.Map p2) /\
  GnssReport.from (Value.Map p1) = GnssReport.from (Value.Map p2) /\
  forall n : Z,
    let r1 := {| id := n; result := Ok (Value.Map p1) |} in
    let r2 := {| id := n; result := Ok (Value.Map p2) |} in
    ImuData.from r1 = ImuData.from r2 /\
    MagnetometerData.from r1 = MagnetometerData.from r2 /\
    BarometerData.from r1 = BarometerData.from r2 /\
    GpsData.from r1 = GpsData.from r2 /\
    EnvironmentState.from r1 = EnvironmentState.from r2 /\
    forall (Pose3 : Type) (pose3_from : Value -> Outcome Pose3),
      DistanceSensorData.from Pose3 pose3_from r1
      = DistanceSensorData.from Pose3 pose3_from r2.
Proof.
  intro H.
  unfold Vector3.from, Quaternionr.from, GnssReport.from, ImuData.from,
    MagnetometerData.from, BarometerData.from, GpsData.from,
    EnvironmentState.from, DistanceSensorData.from; cbn [result Value.as_map unwrap bind].
  rewrite !map_panicking_values, !field_values, H.
  repeat split.
Qed.

Lemma decoders_ignore_keys_witness :
  let p1 := [(Value.String "x_val", Value.Integer 1);
             (Value.String "y_val", Value.F32 zero32);
             (Value.String "z_val", Value.F64 zero64)] in
  let p2 := [(Value.String "a", Value.Integer 1);
             (Value.Nil, Value.F32 zero32);
             (Value.Integer 5, Value.F64 zero64)] in
  map snd p1 = map snd p2 /\
  Vector3.from (Value.Map p1) = Vector3.from (Value.Map p2).
Proof.
  intros p1 p2. split; [reflexivity|].
  apply (proj1 (decoders_ignore_keys p1 p2 eq_refl)).
Defined.

(** C1 (counterexample): the decoders have no error result; a non-Map
    payload, or a Map that is too short, makes them panic. *)
Lemma decode_aborts_on_malformed :
  Vector3.from Value.Nil = Panic /\
  ImuData.from {| id := 0; result := Ok (Value.Map []) |} = Panic.
Proof. split; reflexivity. Qed.

(** C1 (amended): on a non-Map payload, or a Map with fewer entries than
    the positions the decoder reads, every decoder panics: 3 for Vector3,
    4 for Quaternionr, 6 for GnssReport, and inside an [Ok] response 4 for
    ImuData, 2 for MagnetometerData, 4 for BarometerData, 3 for GpsData,
    6 for EnvironmentState and 5 for DistanceSensorData (whatever its
    Pose3 decoder). *)
Theorem decoders_panic_on_short_map (v : Value) :
  (short_map 3 v = true -> Vector3.from v = Panic) /\
  (short_map 4 v = true -> Quaternionr.from v = Panic) /\
  (short_map 6 v = true -> GnssReport.from v = Panic) /\
  forall n : Z,
    let r := {| id := n; result := Ok v |} in
    (short_map 4 v = true -> ImuData.from r = Panic) /\
    (short_map 2 v = true -> MagnetometerData.from r = Panic) /\
    (short_map 4 v = true -> BarometerData.from r = Panic) /\
    (short_map 3 v = true -> GpsData.from r = Panic) /\
    (short_map 6 v = true -> EnvironmentState.from r = Panic) /\
    (forall (Pose3 : Type) (pose3_from : Value -> Outcome Pose3),
       short_map 5 v = true -> DistanceSensorData.from Pose3 pose3_from r = Panic).
Proof.
  unfold short_map, Vector3.from, Quaternionr.from, GnssReport.from, ImuData.from,
    MagnetometerData.from, BarometerData.from, GpsData.from,
    EnvironmentState.from, DistanceSensorData.from; cbn [result].
  destruct (Value.as_map v) as [payload|]; cbn [unwrap bind];
    [|repeat split; intros; reflexivity].
  repeat split; intros until 1; match goal with H : _ = true |- _ => apply Nat.ltb_lt in H end.
  (* Vector3 and Quaternionr: the loop keeps one point per entry *)
  1-2: match goal with
       | |- bind (map_panicking ?f ?l) _ = _ =>
           destruct (map_panicking f l) as [points|] eqn:E; [|reflexivity]
       end;
       apply map_panicking_length in E; cbn [bind].
  all: panics_after.
Qed.

Lemma decoders_panic_on_short_map_witness :
  let v := Value.Map [(Value.String "x_val", Value.F32 zero32);
                      (Value.String "y_val", Value.F32 zero32)] in
  short_map 3 v = true /\ Vector3.from v = Panic.
Proof.
  intro v. split; [reflexivity|].
  apply (proj1 (decoders_panic_on_short_map v)). reflexivity.
Defined.

(** C6 (counterexample): a well-formed GnssReport payload whose fix-type
    code is 4 makes the decoder panic, while the same payload with code 3
    decodes. *)
Lemma gnss_fix_type_4_panics :
  GnssReport.from (gnss_sample 4) = Panic /\
  exists r, GnssReport.from (gnss_sample 3) = Ret r.
Proof. split; [reflexivity | eexists; reflexivity]. Qed.

(** C6 (amended): when the fix-type entry (position 4) of a GnssReport Map
    is an integer outside 0..3, the decoder panics: there is no
    UnknownVariant result. *)
Theorem gnss_bad_fix_type_panics (v : Value) (payload : list (Value * Value))
    (key : Value) (code : Z) :
  Value.as_map v = Some payload ->
  nth_error payload 4 = Some (key, Value.Integer code) ->
  code < 0 \/ 3 < code ->
  GnssReport.from v = Panic.
Proof.
  intros Hmap H4 Hcode.
  assert (F4 : field payload 4 = Ret (Value.Integer code))
    by (unfold field, index; now rewrite H4).
  unfold GnssReport.from. rewrite Hmap. cbn [unwrap bind].
  rewrite F4. cbn [unwrap bind Value.as_u64].
  destruct (0 <=? code) eqn:Hc.
  - apply Z.leb_le in Hc. cbn [bind unwrap].
    rewrite fix_type_of_code_out by lia. cbn [bind].
    panics_after; reflexivity.
  - cbn [bind unwrap]. panics_after; reflexivity.
Qed.

Lemma gnss_bad_fix_type_panics_witness :
  Value.as_map (gnss_sample 9) = Some (gnss_payload 9) /\
  nth_error (gnss_payload 9) 4 = Some (Value.String "fix_type", Value.Integer 9) /\
  GnssReport.from (gnss_sample 9) = Panic.
Proof.
  split; [reflexivity|]. split; [reflexivity|].
  apply (gnss_bad_fix_type_panics (gnss_sample 9) (gnss_payload 9) (Value.String "fix_type") 9);
    [reflexivity | reflexivity | lia].
Defined.

(** C10: [move_to_position_async] answers [Ok(true)] exactly when the
    response's result slot is [Ok], whatever the value (a reply
    [Bool(false)] gives [Ok(true)]); [take_off_async] answers [Ok(true)]
    exactly when the result is [Ok(Bool(true))]. *)
Theorem move_to_position_ignores_result :
  (forall (E : Type) (unary_rpc : string -> option (list Value) -> Result Response E)
          (c : MultiRotorClient.MultiRotorClient) (position : Position.Position)
          (velocity timeout_sec : f32) (drivetrain : DrivetrainType.DrivetrainType)
          (yaw_mode : YawMode.YawMode) (lookahead adaptive_lookahead : option Z)
          (method : string) (params : option (list Value)) (response : Response),
     MultiRotorClient.move_to_position_request position velocity timeout_sec
       drivetrain yaw_mode lookahead adaptive_lookahead = (method, params) ->
     unary_rpc method params = Ok response ->
     let answer :=
       MultiRotorClient.move_to_position_async E unary_rpc c position velocity
         timeout_sec drivetrain yaw_mode lookahead adaptive_lookahead in
     (answer = Ok true <-> is_ok (result response) = true) /\
     (result response = Ok (Value.Boolean false) -> answer = Ok true)) /\
  (forall (E : Type) (unary_rpc : string -> option (list Value) -> Result Response E)
          (c : MultiRotorClient.MultiRotorClient) (timeout_sec : Z)
          (method : string) (params : option (list Value)) (response : Response),
     MultiRotorClient.take_off_request c timeout_sec = (method, params) ->
     unary_rpc method params = Ok response ->
     let answer := MultiRotorClient.take_off_async E unary_rpc c timeout_sec in
     (answer = Ok true <-> result response = Ok (Value.Boolean true)) /\
     (result response = Ok (Value.Boolean false) -> answer = Ok false)).
Proof.
  split.
  - intros E unary_rpc c position velocity timeout_sec drivetrain yaw_mode la ala
      method params response Hreq Hrpc answer.
    subst answer. unfold MultiRotorClient.move_to_position_async.
    rewrite Hreq, Hrpc. cbn [map_ok].
    split.
    + split; intro H; [injection H as H|]; congruence.
    + intros Hr. now rewrite Hr.
  - intros E unary_rpc c timeout_sec method params response Hreq Hrpc answer.
    subst answer. unfold MultiRotorClient.take_off_async.
    rewrite Hreq, Hrpc. cbn [map_ok].
    split.
    + destruct (result response) as [v|err]; cbn [is_ok andb].
      * destruct v; cbn [Value.as_bool];
          try (split; intro H; discriminate).
        destruct b; split; intro H; congruence.
      * split; intro H; discriminate.
    + intros Hr. now rewrite Hr.
Qed.


Lemma move_to_position_ignores_result_witness :
  let c := {| MultiRotorClient.vehicle_name := "Drone1" |} in
  let req := MultiRotorClient.move_to_position_request origin zero32 zero32
               DrivetrainType.ForwardOnly level_yaw None None in
  let response := {| id := 0; result := Ok (Value.Boolean false) |} in
  req = (fst req, snd req) /\
  stub_reply false (fst req) (snd req) = Ok response /\
  result response = Ok (Value.Boolean false) /\
  MultiRotorClient.move_to_position_async unit (stub_reply false) c origin zero32 zero32
    DrivetrainType.ForwardOnly level_yaw None None = Ok true.
Proof.
  intros c req response.
  split; [reflexivity|]. split; [reflexivity|]. split; [reflexivity|].
  apply (proj2 (proj1 move_to_position_ignores_result unit (stub_reply false) c origin
                  zero32 zero32 DrivetrainType.ForwardOnly level_yaw None None
                  (fst req) (snd req) response eq_refl eq_refl)).
  reflexivity.
Defined.

(** ** Further properties of the codec and the facade *)

Lemma unwrap_ret {A} (o : option A) (a : A) : unwrap o = Ret a -> o = Some a.
Proof. destruct o; simpl; congruence. Qed.

Lemma field_ret (payload : list (Value * Value)) (n : nat) (v : Value) :
  field payload n = Ret v -> exists k, nth_error payload n = Some (k, v).
Proof.
  unfold field, index. destruct (nth_error payload n) as [[k v']|]; simpl; [|discriminate].
  intro H; injection H as <-; eauto.
Qed.

Lemma as_u64_some (v : Value) (n : Z) :
  Value.as_u64 v = Some n -> v = Value.Integer n /\ 0 <= n.
Proof.
  destruct v; simpl; try discriminate.
  destruct (0 <=? n0) eqn:E; [|discriminate]. intro H; injection H as <-.
  split; [reflexivity | now apply Z.leb_le].
Qed.

Lemma field_app (payload extra : list (Value * Value)) (n : nat) :
  (n < List.length payload)%nat -> field (payload ++ extra) n = field payload n.
Proof. intro H. unfold field, index. now rewrite nth_error_app1. Qed.

Lemma push_all {A} (l acc : list A) :
  fold_left (fun acc p => acc ++ [p]) l acc = acc ++ l.
Proof.
  revert acc; induction l as [|x l IH]; intro acc; simpl.
  - now rewrite app_nil_r.
  - rewrite IH. now rewrite <- app_assoc.
Qed.

Lemma map_panicking_in_panic {A B} (f : A -> Outcome B) (xs : list A) (x : A) :
  In x xs -> f x = Panic -> map_panicking f xs = Panic.
Proof.
  induction xs as [|y xs IH]; simpl; [contradiction|].
  intros [<-|Hin] Hx.
  - now rewrite Hx.
  - destruct (f y); simpl; [|reflexivity]. now rewrite IH.
Qed.

Lemma map_panicking_numeric (rest : list (Value * Value)) :
  Forall (fun kv => Value.as_f64 (snd kv) <> None) rest ->
  exists ys, map_panicking (fun '(_, v) => f32_of v) rest = Ret ys.
Proof.
  induction 1 as [|[k v] rest Hv _ [ys IH]]; simpl; [eauto|].
  simpl in Hv. destruct (Value.as_f64 v) as [f|] eqn:Ev; [|congruence].
  assert (F : f32_of v = Ret (f64_as_f32 f)) by (unfold f32_of; now rewrite Ev).
  rewrite F. simpl. rewrite IH. simpl. eauto.
Qed.

(** A Response whose result slot is [Err] makes every Response decoder
    panic: a server-side error is never returned to the caller. *)
Theorem response_error_panics (n : Z) (err : Value) :
  let r := {| id := n; result := Err err |} in
  ImuData.from r = Panic /\ MagnetometerData.from r = Panic /\
  BarometerData.from r = Panic /\ GpsData.from r = Panic /\
  EnvironmentState.from r = Panic /\ CompressedImage.from r = Panic /\
  forall (Pose3 : Type) (pose3_from : Value -> Outcome Pose3),
    DistanceSensorData.from Pose3 pose3_from r = Panic.
Proof. intro r. repeat split. Qed.

(** CompressedImage decode copies the bytes of a [Binary] result, or the
    UTF-8 bytes of a [String] result, in order; any other kind of result
    panics. *)
Theorem compressed_image_bytes (n : Z) (res : Value) :
  CompressedImage.from {| id := n; result := Ok res |} =
  match Value.as_slice res with
  | Some bytes => Ret {| CompressedImage.pixels := bytes |}
  | None => Panic
  end.
Proof.
  unfold CompressedImage.from; cbn [result].
  destruct (Value.as_slice res); cbn [unwrap bind]; [|reflexivity].
  now rewrite push_all.
Qed.

(** Vector3 decode of a Map whose first three values are finite [F32]
    returns them unchanged; further numeric entries are converted but
    ignored. *)
Theorem vector3_decode_prefix (k1 k2 k3 : Value) (a b c : f32)
    (rest : list (Value * Value)) :
  is_finite32 a = true -> is_finite32 b = true -> is_finite32 c = true ->
  Forall (fun kv => Value.as_f64 (snd kv) <> None) rest ->
  Vector3.from (Value.Map ((k1, Value.F32 a) :: (k2, Value.F32 b) :: (k3, Value.F32 c) :: rest))
  = Ret {| Vector3.x := a; Vector3.y := b; Vector3.z := c |}.
Proof.
  intros Ha Hb Hc Hrest. destruct (map_panicking_numeric rest Hrest) as [ys E].
  assert (P : map_panicking (fun '(_, v) => f32_of v)
                ((k1, Value.F32 a) :: (k2, Value.F32 b) :: (k3, Value.F32 c) :: rest)
              = Ret (a :: b :: c :: ys)).
  { cbn [map_panicking]. rewrite E. unfold f32_of. cbn.
    now rewrite !f32_roundtrip by assumption. }
  unfold Vector3.from; cbn [Value.as_map unwrap bind]. rewrite P. reflexivity.
Qed.

Lemma vector3_decode_prefix_witness :
  let one := S754_finite false 8388608 (-23) in
  is_finite32 one = true /\ is_finite32 zero32 = true /\
  Forall (fun kv => Value.as_f64 (snd kv) <> None) [(Value.Nil, Value.Integer 7)] /\
  Vector3.from (Value.Map [(Value.Nil, Value.F32 one); (Value.Nil, Value.F32 zero32);
                           (Value.Nil, Value.F32 one); (Value.Nil, Value.Integer 7)])
  = Ret {| Vector3.x := one; Vector3.y := zero32; Vector3.z := one |}.
Proof.
  intro one. split; [reflexivity|]. split; [reflexivity|].
  assert (HF : Forall (fun kv => Value.as_f64 (snd kv) <> None) [(Value.Nil, Value.Integer 7)])
    by (constructor; [discriminate | constructor]).
  split; [exact HF|].
  apply vector3_decode_prefix; try reflexivity. exact HF.
Defined.

(** Vector3 and Quaternionr decode convert every entry of the Map before
    reading positions: one non-numeric value anywhere, even past the
    positions they read, makes them panic. *)
Theorem vector_decode_non_numeric_panics (payload : list (Value * Value)) (k v : Value) :
  In (k, v) payload -> Value.as_f64 v = None ->
  Vector3.from (Value.Map payload) = Panic /\ Quaternionr.from (Value.Map payload) = Panic.
Proof.
  intros Hin Hv.
  assert (E : map_panicking (fun '(_, v) => f32_of v) payload = Panic).
  { apply (map_panicking_in_panic _ _ (k, v) Hin). unfold f32_of. now rewrite Hv. }
  unfold Vector3.from, Quaternionr.from; cbn [Value.as_map unwrap bind].
  now rewrite E.
Qed.

Lemma vector_decode_non_numeric_panics_witness :
  let payload := [(Value.String "x_val", Value.F32 zero32); (Value.String "y_val", Value.F32 zero32);
                  (Value.String "z_val", Value.F32 zero32); (Value.String "w", Value.Nil)] in
  In (Value.String "w", Value.Nil) payload /\ Value.as_f64 Value.Nil = None /\
  Vector3.from (Value.Map payload) = Panic.
Proof.
  intro payload.
  assert (Hin : In (Value.String "w", Value.Nil) payload) by (simpl; tauto).
  split; [exact Hin|]. split; [reflexivity|].
  apply (proj1 (vector_decode_non_numeric_panics payload (Value.String "w") Value.Nil Hin eq_refl)).
Defined.

(** Quaternionr decode of a Map whose first four values are finite [F32]
    returns them unchanged, the first as the real part [w]. *)
Theorem quaternion_decode_order (k0 k1 k2 k3 : Value) (a b c d : f32)
    (rest : list (Value * Value)) :
  is_finite32 a = true -> is_finite32 b = true -> is_finite32 c = true ->
  is_finite32 d = true ->
  Forall (fun kv => Value.as_f64 (snd kv) <> None) rest ->
  Quaternionr.from (Value.Map ((k0, Value.F32 a) :: (k1, Value.F32 b) :: (k2, Value.F32 c)
                               :: (k3, Value.F32 d) :: rest))
  = Ret {| Quaternionr.w := a; Quaternionr.i := b; Quaternionr.j := c; Quaternionr.k := d |}.
Proof.
  intros Ha Hb Hc Hd Hrest. destruct (map_panicking_numeric rest Hrest) as [ys E].
  assert (P : map_panicking (fun '(_, v) => f32_of v)
                ((k0, Value.F32 a) :: (k1, Value.F32 b) :: (k2, Value.F32 c)
                 :: (k3, Value.F32 d) :: rest)
              = Ret (a :: b :: c :: d :: ys)).
  { cbn [map_panicking]. rewrite E. unfold f32_of. cbn.
    now rewrite !f32_roundtrip by assumption. }
  unfold Quaternionr.from; cbn [Value.as_map unwrap bind]. rewrite P. reflexivity.
Qed.

Lemma quaternion_decode_order_witness :
  let one := S754_finite false 8388608 (-23) in
  is_finite32 one = true /\ is_finite32 zero32 = true /\
  Quaternionr.from (Value.Map [(Value.String "w_val", Value.F32 one);
                               (Value.String "x_val", Value.F32 zero32);
                               (Value.String "y_val", Value.F32 zero32);
                               (Value.String "z_val", Value.F32 zero32)])
  = Ret {| Quaternionr.w := one; Quaternionr.i := zero32;
           Quaternionr.j := zero32; Quaternionr.k := zero32 |}.
Proof.
  intro one. split; [reflexivity|]. split; [reflexivity|].
  apply quaternion_decode_order; try reflexivity. constructor.
Defined.

(** BarometerData decode reads the pressure at position 1 and the
    altitude at position 2 (the reverse of the struct's field order), the
    QNH at 3 and a non-negative integer timestamp at 0. *)
Theorem barometer_field_order (n : Z) (k0 k1 k2 k3 : Value) (t : Z) (p a q : f32)
    (rest : list (Value * Value)) :
  0 <= t -> is_finite32 p = true -> is_finite32 a = true -> is_finite32 q = true ->
  BarometerData.from {| id := n; result := Ok (Value.Map
      ((k0, Value.Integer t) :: (k1, Value.F32 p) :: (k2, Value.F32 a) :: (k3, Value.F32 q) :: rest)) |}
  = Ret {| BarometerData.timestamp := t; BarometerData.altitude := a;
           BarometerData.pressure := p; BarometerData.qnh := q |}.
Proof.
  intros Ht Hp Ha Hq. unfold BarometerData.from, field, index, f32_of. cbn.
  replace (0 <=? t) with true by (symmetry; now apply Z.leb_le). cbn.
  rewrite !f32_roundtrip by assumption. reflexivity.
Qed.

Lemma barometer_field_order_witness :
  let one := S754_finite false 8388608 (-23) in
  is_finite32 one = true /\ is_finite32 zero32 = true /\
  BarometerData.from {| id := 1; result := Ok (Value.Map
      [(Value.String "time_stamp", Value.Integer 5); (Value.String "altitude", Value.F32 one);
       (Value.String "pressure", Value.F32 zero32); (Value.String "qnh", Value.F32 one)]) |}
  = Ret {| BarometerData.timestamp := 5; BarometerData.altitude := zero32;
           BarometerData.pressure := one; BarometerData.qnh := one |}.
Proof.
  intro one. split; [reflexivity|]. split; [reflexivity|].
  apply barometer_field_order; reflexivity || lia.
Defined.

Ltac decoded_ok H :=
  match type of H with
  | match result ?r with Ok _ => _ | Err _ => _ end = Ret _ =>
      let res := fresh "res" in
      destruct (result r) as [res|] eqn:Hres; [|discriminate]
  end;
  ret_inv H.

(** Each telemetry decoder that succeeds took its timestamp from position 0
    of a Map result, where it was a non-negative integer. *)
Theorem decoded_timestamp_at_position_0 (r : Response) :
  (forall d, ImuData.from r = Ret d ->
     exists payload k, result r = Ok (Value.Map payload) /\
       nth_error payload 0 = Some (k, Value.Integer (ImuData.timestamp d)) /\
       0 <= ImuData.timestamp d) /\
  (forall d, MagnetometerData.from r = Ret d ->
     exists payload k, result r = Ok (Value.Map payload) /\
       nth_error payload 0 = Some (k, Value.Integer (MagnetometerData.timestamp d)) /\
       0 <= MagnetometerData.timestamp d) /\
  (forall d, BarometerData.from r = Ret d ->
     exists payload k, result r = Ok (Value.Map payload) /\
       nth_error payload 0 = Some (k, Value.Integer (BarometerData.timestamp d)) /\
       0 <= BarometerData.timestamp d) /\
  (forall d, GpsData.from r = Ret d ->
     exists payload k, result r = Ok (Value.Map payload) /\
       nth_error payload 0 = Some (k, Value.Integer (GpsData.timestamp d)) /\
       0 <= GpsData.timestamp d).
Proof.
  unfold ImuData.from, MagnetometerData.from, BarometerData.from, GpsData.from.
  repeat split; intros d H; decoded_ok H;
    injection H as <-; cbn -[field];
    apply unwrap_ret in Ha, Ha1;
    destruct res; try discriminate; injection Ha as <-;
    destruct (field_ret _ _ _ Ha0) as [k Hk];
    destruct (as_u64_some _ _ Ha1) as [-> Hpos];
    eauto.
Qed.

Lemma decoded_timestamp_at_position_0_witness :
  let r := {| id := 1; result := Ok (Value.Map
      [(Value.String "time_stamp", Value.Integer 5); (Value.String "altitude", Value.F32 zero32);
       (Value.String "pressure", Value.F32 zero32); (Value.String "qnh", Value.F32 zero32)]) |} in
  BarometerData.from r = Ret {| BarometerData.timestamp := 5; BarometerData.altitude := zero32;
                                BarometerData.pressure := zero32; BarometerData.qnh := zero32 |} /\
  exists payload k, result r = Ok (Value.Map payload) /\
    nth_error payload 0 = Some (k, Value.Integer 5) /\ 0 <= 5.
Proof.
  intro r. split; [reflexivity|].
  exact (proj1 (proj2 (proj2 (decoded_timestamp_at_position_0 r)))
           {| BarometerData.timestamp := 5; BarometerData.altitude := zero32;
              BarometerData.pressure := zero32; BarometerData.qnh := zero32 |} eq_refl).
Defined.

(** A decoded GnssReport took its fix type from an integer code in 0..3 at
    position 4, through the code table. *)
Theorem gnss_decoded_fix_type (v : Value) (g : GnssReport.GnssReport) :
  GnssReport.from v = Ret g ->
  exists payload k code,
    Value.as_map v = Some payload /\
    nth_error payload 4 = Some (k, Value.Integer code) /\
    0 <= code <= 3 /\
    GnssReport.fix_type_of_code code = Ret (GnssReport.fix_type g).
Proof.
  unfold GnssReport.from. intro H. ret_inv H. injection H as <-. cbn.
  apply unwrap_ret in Ha, Ha9.
  destruct (field_ret _ _ _ Ha8) as [k Hk].
  destruct (as_u64_some _ _ Ha9) as [-> Hpos].
  exists a, k, a9. split; [exact Ha|]. split; [exact Hk|]. split; [|exact Ha10].
  split; [exact Hpos|].
  destruct (Z_le_gt_dec a9 3) as [Hle|Hgt]; [exact Hle|].
  rewrite fix_type_of_code_out in Ha10 by lia. discriminate.
Qed.

Lemma gnss_decoded_fix_type_witness :
  exists g, GnssReport.from (gnss_sample 2) = Ret g /\
  exists payload k code,
    Value.as_map (gnss_sample 2) = Some payload /\
    nth_error payload 4 = Some (k, Value.Integer code) /\
    0 <= code <= 3 /\
    GnssReport.fix_type_of_code code = Ret (GnssReport.fix_type g).
Proof.
  eexists. split; [reflexivity|].
  apply gnss_decoded_fix_type. reflexivity.
Defined.

(** A decoded GpsData is built from its parts: the GnssReport is the
    decode of the value at position 1 and [is_valid] is the Boolean at
    position 2. *)
Theorem gps_decoded_parts (r : Response) (d : GpsData.GpsData) :
  GpsData.from r = Ret d ->
  exists payload k1 g k2,
    result r = Ok (Value.Map payload) /\
    nth_error payload 1 = Some (k1, g) /\
    GnssReport.from g = Ret (GpsData.gnss_report d) /\
    nth_error payload 2 = Some (k2, Value.Boolean (GpsData.is_valid d)).
Proof.
  unfold GpsData.from. intro H. decoded_ok H. injection H as <-. cbn.
  apply unwrap_ret in Ha, Ha5.
  destruct res; try discriminate. injection Ha as <-.
  destruct (field_ret _ _ _ Ha2) as [k1 H1].
  destruct (field_ret _ _ _ Ha4) as [k2 H2].
  destruct a4; try discriminate. injection Ha5 as ->.
  eauto 10.
Qed.

Lemma gps_decoded_parts_witness :
  let r := {| id := 1; result := Ok (Value.Map
      [(Value.String "time_stamp", Value.Integer 0);
       (Value.String "gnss", gnss_sample 3);
       (Value.String "is_valid", Value.Boolean true)]) |} in
  exists d, GpsData.from r = Ret d /\
  exists payload k1 g k2,
    result r = Ok (Value.Map payload) /\
    nth_error payload 1 = Some (k1, g) /\
    GnssReport.from g = Ret (GpsData.gnss_report d) /\
    nth_error payload 2 = Some (k2, Value.Boolean (GpsData.is_valid d)).
Proof.
  intro r. eexists. split; [reflexivity|].
  apply gps_decoded_parts. reflexivity.
Defined.

(** The decoders read a fixed number of leading entries of the Map and
    never look past them: entries appended after those are ignored. *)
Theorem decoders_ignore_trailing_entries (n : Z) (payload extra : list (Value * Value)) :
  let dec l := {| id := n; result := Ok (Value.Map l) |} in
  ((4 <= List.length payload)%nat ->
     ImuData.from (dec (payload ++ extra)) = ImuData.from (dec payload)) /\
  ((2 <= List.length payload)%nat ->
     MagnetometerData.from (dec (payload ++ extra)) = MagnetometerData.from (dec payload)) /\
  ((4 <= List.length payload)%nat ->
     BarometerData.from (dec (payload ++ extra)) = BarometerData.from (dec payload)) /\
  ((3 <= List.length payload)%nat ->
     GpsData.from (dec (payload ++ extra)) = GpsData.from (dec payload)) /\
  ((6 <= List.length payload)%nat ->
     EnvironmentState.from (dec (payload ++ extra)) = EnvironmentState.from (dec payload)) /\
  ((6 <= List.length payload)%nat ->
     GnssReport.from (Value.Map (payload ++ extra)) = GnssReport.from (Value.Map payload)) /\
  ((5 <= List.length payload)%nat ->
     forall (Pose3 : Type) (pose3_from : Value -> Outcome Pose3),
     DistanceSensorData.from Pose3 pose3_from (dec (payload ++ extra))
     = DistanceSensorData.from Pose3 pose3_from (dec payload)).
Proof.
  intro dec.
  unfold dec, ImuData.from, MagnetometerData.from, BarometerData.from, GpsData.from,
    EnvironmentState.from, GnssReport.from, DistanceSensorData.from.
  cbn [result Value.as_map unwrap bind].
  repeat split; intros; repeat rewrite field_app by lia; reflexivity.
Qed.

Lemma decoders_ignore_trailing_entries_witness :
  (6 <= List.length (gnss_payload 1))%nat /\
  GnssReport.from (Value.Map (gnss_payload 1 ++ [(Value.Nil, Value.Nil)]))
  = GnssReport.from (Value.Map (gnss_payload 1)).
Proof.
  split; [cbn; lia|].
  exact (proj1 (proj2 (proj2 (proj2 (proj2 (proj2
           (decoders_ignore_trailing_entries 0 (gnss_payload 1) [(Value.Nil, Value.Nil)]))))))
           ltac:(cbn; lia)).
Defined.

Section Facade.

Variable NetworkError : Type.
Variable unary_rpc : string -> option (list Value) -> Result Response NetworkError.

(** [take_off_async] returns [Ok(true)] exactly when the transport
    answers the "takeoff" request (timeout and vehicle name) with a
    Response whose result is [Boolean(true)]; a server error, or any
    other result, gives [Ok(false)]. *)
Theorem take_off_true_iff (c : MultiRotorClient.MultiRotorClient) (timeout_sec : Z) :
  MultiRotorClient.take_off_async NetworkError unary_rpc c timeout_sec = Ok true <->
  exists response,
    unary_rpc "takeoff"%string
      (Some [Value.Integer timeout_sec; Value.String (MultiRotorClient.vehicle_name c)])
    = Ok response /\
    result response = Ok (Value.Boolean true).
Proof.
  unfold MultiRotorClient.take_off_async, MultiRotorClient.take_off_request, map_ok.
  destruct (unary_rpc _ _) as [response|e]; split.
  - intro H. injection H as H. exists response. split; [reflexivity|].
    destruct (result response) as [v|v]; [|discriminate].
    destruct v; try discriminate. destruct b; [reflexivity|discriminate].
  - intros (resp & E & R). injection E as <-. now rewrite R.
  - discriminate.
  - intros (resp & E & _). discriminate.
Qed.

(** A transport error reaches the caller of [take_off_async] and of
    [move_to_position_async] unchanged, and it is the only way either
    returns [Err]. *)
Theorem facade_errors_are_transport_errors (c : MultiRotorClient.MultiRotorClient)
    (timeout_sec : Z) (position : Position.Position) (velocity timeout : f32)
    (drivetrain : DrivetrainType.DrivetrainType) (yaw_mode : YawMode.YawMode)
    (lookahead adaptive_lookahead : option Z) (e : NetworkError) :
  (MultiRotorClient.take_off_async NetworkError unary_rpc c timeout_sec = Err e <->
   let '(method, params) := MultiRotorClient.take_off_request c timeout_sec in
   unary_rpc method params = Err e) /\
  (MultiRotorClient.move_to_position_async NetworkError unary_rpc c position velocity
     timeout drivetrain yaw_mode lookahead adaptive_lookahead = Err e <->
   let '(method, params) :=
     MultiRotorClient.move_to_position_request position velocity timeout drivetrain
       yaw_mode lookahead adaptive_lookahead in
   unary_rpc method params = Err e).
Proof.
  unfold MultiRotorClient.take_off_async, MultiRotorClient.move_to_position_async,
    MultiRotorClient.take_off_request, MultiRotorClient.move_to_position_request, map_ok.
  split; destruct (unary_rpc _ _); split; congruence.
Qed.

End Facade.

(** [ImageRequests::as_msgpack] never panics: it gives an Array with one
    four-pair Map per request, in the order of the requests. *)
Theorem image_requests_encoding (reqs : ImageRequests.ImageRequests) :
  ImageRequests.as_msgpack reqs =
  Ret (Value.Array (map (fun r =>
         Value.Map [
           (Value.String "camera_name", Value.String (ImageRequest.camera_name r));
           (Value.String "image_type", ImageType.as_msgpack (ImageRequest.image_type r));
           (Value.String "pixels_as_float", Value.Boolean (ImageRequest.pixels_as_float r));
           (Value.String "compress", Value.Boolean (ImageRequest.compress r))]) reqs)).
Proof.
  unfold ImageRequests.as_msgpack.
  induction reqs as [|r reqs IH]; [reflexivity|].
  cbn [map_panicking map]. cbn [ImageRequest.as_msgpack Value.as_map unwrap bind].
  destruct (map_panicking ImageRequest.as_msgpack reqs); [|discriminate].
  cbn [bind] in IH |- *. injection IH as ->. reflexivity.
Qed.

Lemma vector3_from_encoded (v : Vector3.Vector3) :
  is_finite32 (Vector3.x v) = true -> is_finite32 (Vector3.y v) = true ->
  is_finite32 (Vector3.z v) = true ->
  Vector3.from (Value.Map [(Value.String "x_val", Value.F32 (Vector3.x v));
                           (Value.String "y_val", Value.F32 (Vector3.y v));
                           (Value.String "z_val", Value.F32 (Vector3.z v))]) = Ret v.
Proof.
  destruct v as [x y z]; simpl; intros Hx Hy Hz.
  unfold Vector3.from, f32_of; cbn.
  rewrite !f32_roundtrip by assumption. reflexivity.
Qed.

Lemma quaternionr_from_finite (kw ki kj kk : Value) (q : Quaternionr.Quaternionr) :
  is_finite32 (Quaternionr.w q) = true -> is_finite32 (Quaternionr.i q) = true ->
  is_finite32 (Quaternionr.j q) = true -> is_finite32 (Quaternionr.k q) = true ->
  Quaternionr.from (Value.Map [(kw, Value.F32 (Quaternionr.w q)); (ki, Value.F32 (Quaternionr.i q));
                               (kj, Value.F32 (Quaternionr.j q)); (kk, Value.F32 (Quaternionr.k q))])
  = Ret q.
Proof.
  destruct q as [w i j k]; simpl; intros Hw Hi Hj Hk.
  unfold Quaternionr.from, f32_of; cbn.
  rewrite !f32_roundtrip by assumption. reflexivity.
Qed.

(** ImuData decode of a Map holding a non-negative timestamp, a
    quaternion Map of finite [F32] values and the [Vector3::as_msgpack]
    encodings of two finite vectors gives back those parts. *)
Theorem imu_decode_composed (n t : Z) (q : Quaternionr.Quaternionr) (av la : Vector3.Vector3)
    (k0 k1 k2 k3 kw ki kj kk : Value) :
  0 <= t ->
  is_finite32 (Quaternionr.w q) = true -> is_finite32 (Quaternionr.i q) = true ->
  is_finite32 (Quaternionr.j q) = true -> is_finite32 (Quaternionr.k q) = true ->
  is_finite32 (Vector3.x av) = true -> is_finite32 (Vector3.y av) = true ->
  is_finite32 (Vector3.z av) = true ->
  is_finite32 (Vector3.x la) = true -> is_finite32 (Vector3.y la) = true ->
  is_finite32 (Vector3.z la) = true ->
  (let* m_av := Vector3.as_msgpack av in
   let* m_la := Vector3.as_msgpack la in
   ImuData.from {| id := n; result := Ok (Value.Map
     [(k0, Value.Integer t);
      (k1, Value.Map [(kw, Value.F32 (Quaternionr.w q)); (ki, Value.F32 (Quaternionr.i q));
                      (kj, Value.F32 (Quaternionr.j q)); (kk, Value.F32 (Quaternionr.k q))]);
      (k2, m_av); (k3, m_la)]) |})
  = Ret {| ImuData.timestamp := t; ImuData.orientation := q;
           ImuData.angular_velocity := av; ImuData.linear_acceleration := la |}.
Proof.
  intros Ht Hw Hi Hj Hk Hax Hay Haz Hlx Hly Hlz.
  cbn [Vector3.as_msgpack Value.as_map unwrap bind].
  unfold ImuData.from. cbn [result Value.as_map unwrap bind field index nth_error snd].
  unfold Value.as_u64. replace (0 <=? t) with true by (symmetry; now apply Z.leb_le).
  cbn [unwrap bind].
  rewrite quaternionr_from_finite by assumption. cbn [bind].
  rewrite !vector3_from_encoded by assumption. reflexivity.
Qed.

Lemma imu_decode_composed_witness :
  let one := S754_finite false 8388608 (-23) in
  let q := {| Quaternionr.w := one; Quaternionr.i := zero32; Quaternionr.j := zero32;
              Quaternionr.k := zero32 |} in
  let v := {| Vector3.x := zero32; Vector3.y := one; Vector3.z := zero32 |} in
  (let* m_av := Vector3.as_msgpack v in
   let* m_la := Vector3.as_msgpack v in
   ImuData.from {| id := 7; result := Ok (Value.Map
     [(Value.String "time_stamp", Value.Integer 12);
      (Value.String "orientation",
         Value.Map [(Value.String "w_val", Value.F32 (Quaternionr.w q));
                    (Value.String "x_val", Value.F32 (Quaternionr.i q));
                    (Value.String "y_val", Value.F32 (Quaternionr.j q));
                    (Value.String "z_val", Value.F32 (Quaternionr.k q))]);
      (Value.String "angular_velocity", m_av);
      (Value.String "linear_acceleration", m_la)]) |})
  = Ret {| ImuData.timestamp := 12; ImuData.orientation := q;
           ImuData.angular_velocity := v; ImuData.linear_acceleration := v |}.
Proof.
  intros one q v.
  apply imu_decode_composed; first [lia | reflexivity].
Defined.

(** The nested values of a decoded ImuData, MagnetometerData or
    EnvironmentState are the decodes of the Map's values at fixed
    positions: Imu orientation at 1, angular velocity at 2, linear
    acceleration at 3; magnetic field at 1; environment position at 0
    and gravity at 2. *)
Theorem nested_fields_positions (r : Response) :
  (forall d, ImuData.from r = Ret d ->
     exists payload k1 v1 k2 v2 k3 v3,
       result r = Ok (Value.Map payload) /\
       nth_error payload 1 = Some (k1, v1) /\ Quaternionr.from v1 = Ret (ImuData.orientation d) /\
       nth_error payload 2 = Some (k2, v2) /\ Vector3.from v2 = Ret (ImuData.angular_velocity d) /\
       nth_error payload 3 = Some (k3, v3) /\ Vector3.from v3 = Ret (ImuData.linear_acceleration d)) /\
  (forall d, MagnetometerData.from r = Ret d ->
     exists payload k1 v1,
       result r = Ok (Value.Map payload) /\
       nth_error payload 1 = Some (k1, v1) /\
       Vector3.from v1 = Ret (MagnetometerData.magnetic_field d)) /\
  (forall d, EnvironmentState.from r = Ret d ->
     exists payload k0 v0 k2 v2,
       result r = Ok (Value.Map payload) /\
       nth_error payload 0 = Some (k0, v0) /\ Vector3.from v0 = Ret (EnvironmentState.position d) /\
       nth_error payload 2 = Some (k2, v2) /\ Vector3.from v2 = Ret (EnvironmentState.gravity d)).
Proof.
  unfold ImuData.from, MagnetometerData.from, EnvironmentState.from.
  split; [|split]; intros d H; decoded_ok H; injection H as <-; cbn;
    apply unwrap_ret in Ha; destruct res; try discriminate; injection Ha as <-.
  - destruct (field_ret _ _ _ Ha2) as [k1 H1].
    destruct (field_ret _ _ _ Ha4) as [k2 H2].
    destruct (field_ret _ _ _ Ha6) as [k3 H3].
    eauto 20.
  - destruct (field_ret _ _ _ Ha2) as [k1 H1]. eauto 10.
  - destruct (field_ret _ _ _ Ha0) as [k0 H0].
    destruct (field_ret _ _ _ Ha4) as [k2 H2].
    eauto 20.
Qed.

Lemma nested_fields_positions_witness :
  let r := {| id := 1; result := Ok (Value.Map
      [(Value.String "time_stamp", Value.Integer 3);
       (Value.String "magnetic_field_body",
          Value.Map [(Value.String "x_val", Value.F32 zero32);
                     (Value.String "y_val", Value.F32 zero32);
                     (Value.String "z_val", Value.F32 zero32)])]) |} in
  exists d, MagnetometerData.from r = Ret d /\
  exists payload k1 v1,
    result r = Ok (Value.Map payload) /\
    nth_error payload 1 = Some (k1, v1) /\
    Vector3.from v1 = Ret (MagnetometerData.magnetic_field d).
Proof.
  intro r. eexists. split; [reflexivity|].
  exact (proj1 (proj2 (nested_fields_positions r)) _ eq_refl).
Defined.

(** A decoded DistanceSensorData took a non-negative integer timestamp
    from position 0 and its relative pose from the Pose3 decode of
    position 4. *)
Theorem distance_decoded_parts (Pose3 : Type) (pose3_from : Value -> Outcome Pose3)
    (r : Response) (d : DistanceSensorData.DistanceSensorData Pose3) :
  DistanceSensorData.from Pose3 pose3_from r = Ret d ->
  exists payload k0 k4 v4,
    result r = Ok (Value.Map payload) /\
    nth_error payload 0 = Some (k0, Value.Integer (DistanceSensorData.timestamp Pose3 d)) /\
    0 <= DistanceSensorData.timestamp Pose3 d /\
    nth_error payload 4 = Some (k4, v4) /\
    pose3_from v4 = Ret (DistanceSensorData.relative_pose Pose3 d).
Proof.
  unfold DistanceSensorData.from. intro H. decoded_ok H. injection H as <-. cbn.
  apply unwrap_ret in Ha, Ha1.
  destruct res; try discriminate. injection Ha as <-.
  destruct (field_ret _ _ _ Ha0) as [k0 H0].
  destruct (as_u64_some _ _ Ha1) as [-> Hpos].
  destruct (field_ret _ _ _ Ha8) as [k4 H4].
  eauto 10.
Qed.

Lemma distance_decoded_parts_witness :
  let r := {| id := 1; result := Ok (Value.Map
      [(Value.String "time_stamp", Value.Integer 4);
       (Value.String "distance", Value.F32 zero32);
       (Value.String "min_distance", Value.F32 zero32);
       (Value.String "max_distance", Value.F32 zero32);
       (Value.String "relative_pose", Value.Nil)]) |} in
  exists d, DistanceSensorData.from unit (fun _ => Ret tt) r = Ret d /\
  exists payload k0 k4 v4,
    result r = Ok (Value.Map payload) /\
    nth_error payload 0 = Some (k0, Value.Integer (DistanceSensorData.timestamp unit d)) /\
    0 <= DistanceSensorData.timestamp unit d /\
    nth_error payload 4 = Some (k4, v4) /\
    (fun _ : Value => Ret tt) v4 = Ret (DistanceSensorData.relative_pose unit d).
Proof.
  intro r. eexists. split; [reflexivity|].
  apply (distance_decoded_parts unit (fun _ => Ret tt)). reflexivity.
Defined.
